(** * DDH-based Private Intersection-Sum: a model of [ddh_psi_sum.py]

    The development follows the Python module top to bottom: the byte and hash
    primitives the module imports, the curve it fixes, the [DDHGroup] class,
    the [Party] classes and [run_protocol]; the test methods of [test.py]
    come last.  Calls into [cryptography] and [phe] are modelled by what
    the libraries do on them, an exception where the module uses a name or a
    signature the library does not have; every such decision is stated where
    the definition stands. *)

From Stdlib Require Import Strings.String Strings.Ascii Strings.Byte.
From Stdlib Require Import ZArith List Bool Lia.
Import ListNotations.
Local Open Scope Z_scope.

(** ** Bytes *)

Module Bytes.

Definition bytes := list byte.

Definition byte_to_Z (b : byte) : Z := Z.of_N (Byte.to_N b).

Definition byte_of_Z (z : Z) : byte :=
  match Byte.of_N (Z.to_N (z mod 256)) with
  | Some b => b
  | None => x00
  end.

(** [int.from_bytes(bs, 'big')] *)
Definition int_from_bytes (bs : bytes) : Z :=
  fold_left (fun acc b => acc * 256 + byte_to_Z b) bs 0.

(** [z.to_bytes(len, 'big')], for [0 <= z < 256 ^ len]. *)
Fixpoint int_to_bytes (len : nat) (z : Z) : bytes :=
  match len with
  | O => []
  | S len' => int_to_bytes len' (z / 256) ++ [byte_of_Z z]
  end.

(** [str.encode()] on the byte strings [string] holds. *)
Definition encode (s : string) : bytes := list_byte_of_string s.

End Bytes.

(** ** SHA-256 (FIPS 180-4), the digest behind [hashes.Hash(hashes.SHA256())] *)

Module SHA256.
Import Bytes.

Definition wrap (x : Z) : Z := x mod 2 ^ 32.
Definition add32 (x y : Z) : Z := wrap (x + y).
Definition rotr (n x : Z) : Z :=
  Z.lor (Z.shiftr x n) (wrap (Z.shiftl x (32 - n))).

Definition ch (x y z : Z) : Z :=
  Z.lxor (Z.land x y) (Z.land (Z.lnot x) z).
Definition maj (x y z : Z) : Z :=
  Z.lxor (Z.lxor (Z.land x y) (Z.land x z)) (Z.land y z).
Definition big_sigma0 x := Z.lxor (Z.lxor (rotr 2 x) (rotr 13 x)) (rotr 22 x).
Definition big_sigma1 x := Z.lxor (Z.lxor (rotr 6 x) (rotr 11 x)) (rotr 25 x).
Definition small_sigma0 x := Z.lxor (Z.lxor (rotr 7 x) (rotr 18 x)) (Z.shiftr x 3).
Definition small_sigma1 x := Z.lxor (Z.lxor (rotr 17 x) (rotr 19 x)) (Z.shiftr x 10).

(** The first 64 primes. *)
Definition is_prime (n : Z) : bool :=
  forallb (fun d => negb (n mod d =? 0)) (map Z.of_nat (seq 2 (Z.to_nat n - 2))).

Definition first_primes : list Z :=
  Eval vm_compute in filter is_prime (map Z.of_nat (seq 2 310)).

(** The integer cube root of [v], found bit by bit below [2 ^ n]. *)
Fixpoint cube_root (n : nat) (v acc : Z) : Z :=
  match n with
  | O => acc
  | S n' =>
      let c := acc + 2 ^ Z.of_nat n' in
      if c * c * c <=? v then cube_root n' v c else cube_root n' v acc
  end.

(** The first 32 bits of the fractional parts of the cube roots of the first
    64 primes. *)
Definition round_constants : list Z :=
  Eval vm_compute in map (fun p => wrap (cube_root 36 (p * 2 ^ 96) 0)) first_primes.

(** The first 32 bits of the fractional parts of the square roots of the
    first 8 primes. *)
Definition initial_state : list Z :=
  Eval vm_compute in map (fun p => wrap (Z.sqrt (p * 2 ^ 64))) (firstn 8 first_primes).

(** Padding: a one bit, zeros up to 56 mod 64 bytes, the bit length on 8 bytes. *)
Definition pad (msg : bytes) : bytes :=
  let len := Z.of_nat (length msg) in
  let zeros := Z.to_nat ((55 - len) mod 64) in
  msg ++ [x80] ++ repeat x00 zeros ++ int_to_bytes 8 (8 * len).

(** Big-endian 32-bit words of a byte string whose length is a multiple of 4. *)
Fixpoint words (bs : bytes) : list Z :=
  match bs with
  | b0 :: b1 :: b2 :: b3 :: rest => int_from_bytes [b0; b1; b2; b3] :: words rest
  | _ => []
  end.

(** The message schedule, kept newest first: [extend n ws] adds [n] words. *)
Fixpoint extend (n : nat) (rev_ws : list Z) : list Z :=
  match n with
  | O => rev_ws
  | S n' =>
      let at_ i := nth i rev_ws 0 in
      let w := add32 (add32 (small_sigma1 (at_ 1%nat)) (at_ 6%nat))
                     (add32 (small_sigma0 (at_ 14%nat)) (at_ 15%nat)) in
      extend n' (w :: rev_ws)
  end.

Definition schedule (block : list Z) : list Z := rev (extend 48 (rev block)).

Definition step (st : list Z) (kw : Z * Z) : list Z :=
  match st with
  | [a; b; c; d; e; f; g; h] =>
      let t1 := add32 (add32 (add32 h (big_sigma1 e)) (add32 (ch e f g) (fst kw))) (snd kw) in
      let t2 := add32 (big_sigma0 a) (maj a b c) in
      [add32 t1 t2; a; b; c; add32 d t1; e; f; g]
  | _ => st
  end.

Definition compress (st block : list Z) : list Z :=
  let out := fold_left step (combine round_constants (schedule block)) st in
  map (fun p => add32 (fst p) (snd p)) (combine st out).

(** The blocks of a word list, sixteen words each; [n] bounds their number. *)
Fixpoint blocks (n : nat) (ws : list Z) : list (list Z) :=
  match n, ws with
  | S n', _ :: _ => firstn 16 ws :: blocks n' (skipn 16 ws)
  | _, _ => []
  end.

Definition digest (msg : bytes) : bytes :=
  let ws := words (pad msg) in
  let st := fold_left compress (blocks (length ws) ws) initial_state in
  concat (map (int_to_bytes 4) st).

End SHA256.

(** ** Exceptions and results

    A Python exception is known by its class and its message.  Code that can
    raise returns a [result]. *)

Record exn := { exn_class : string; exn_msg : string }.

Definition ValueError (msg : string) : exn :=
  {| exn_class := "ValueError"; exn_msg := msg |}.
Definition AttributeError (msg : string) : exn :=
  {| exn_class := "AttributeError"; exn_msg := msg |}.
Definition TypeError (msg : string) : exn :=
  {| exn_class := "TypeError"; exn_msg := msg |}.

(** What reading [obj.attribute] raises when the type of [obj] does not
    define the name. *)
Definition no_attribute (type_name attribute : string) : exn :=
  AttributeError
    (String.append "'" (String.append type_name
       (String.append "' object has no attribute '" (String.append attribute "'")))).

Definition is_ValueError (e : exn) : Prop := exists msg, e = ValueError msg.

Inductive result (A : Type) : Type :=
| Return (a : A)
| Throw (e : exn).
Arguments Return {A} a.
Arguments Throw {A} e.

Definition rbind {A B} (c : result A) (f : A -> result B) : result B :=
  match c with
  | Return a => f a
  | Throw e => Throw e
  end.

Declare Scope result_scope.
Delimit Scope result_scope with result.
Notation "x <~ c ;; k" := (rbind c (fun x => k))
  (at level 61, c at next level, right associativity) : result_scope.
Local Open Scope result_scope.

Definition raises {A} (c : result A) : bool :=
  match c with Return _ => false | Throw _ => true end.

(** ** The curve library ([cryptography.hazmat.primitives.asymmetric.ec])

    Short Weierstrass curves [y^2 = x^3 + a x + b] over the integers modulo
    a prime.  The library holds the parameters of a curve and validates
    points with them.  A curve object, public numbers and a key have the
    attributes and methods the library's classes define; reading any other
    name on them raises [AttributeError]. *)

Module ec.
Import Bytes.

(** A curve object: the name of its class and the parameters the library
    holds for it. *)
Record EllipticCurve := {
  class_name : string;
  curve_name : string;
  prime : Z;
  coeff_a : Z;
  coeff_b : Z;
  group_order : Z
}.

(** [ec.SECP256R1()]: NIST P-256 (FIPS 186-4, D.1.2.3). *)
Definition SECP256R1 : EllipticCurve := {|
  class_name := "SECP256R1";
  curve_name := "secp256r1";
  prime := 0xffffffff00000001000000000000000000000000ffffffffffffffffffffffff;
  coeff_a := -3;
  coeff_b := 0x5ac635d8aa3a93e7b3ebbd55769886bc651d06b0cc53b0f63bce3c3e27d2604b;
  group_order := 0xffffffff00000000ffffffffffffffffbce6faada7179e84f3b9cac2fc632551
|}.

(** [curve.field_size]: the curve classes define [name] and [key_size]; a
    curve object has no attribute [field_size]. *)
Definition field_size (c : EllipticCurve) : result Z :=
  Throw (no_attribute (class_name c) "field_size").

(** [ec.EllipticCurvePublicNumbers(x, y, curve)]: any two integers; nothing is
    checked until a key is made of them. *)
Record EllipticCurvePublicNumbers := {
  x : Z;
  y : Z;
  curve : EllipticCurve
}.

(** [ec.EllipticCurvePublicNumbers(x, curve)]: the constructor takes [x],
    [y] and [curve]; called with two arguments it has no [curve]. *)
Definition EllipticCurvePublicNumbers_of_two (x0 : Z) (c : EllipticCurve)
  : result EllipticCurvePublicNumbers :=
  Throw (TypeError
    "EllipticCurvePublicNumbers.__init__() missing 1 required positional argument: 'curve'").

Definition rhs (c : EllipticCurve) (x : Z) : Z :=
  (x * x * x + coeff_a c * x + coeff_b c) mod prime c.

Definition on_curve (c : EllipticCurve) (x y : Z) : bool :=
  (0 <=? x) && (x <? prime c) && (0 <=? y) && (y <? prime c)
  && ((y * y) mod prime c =? rhs c x).

Fixpoint pow_mod_pos (b : Z) (e : positive) (m : Z) : Z :=
  match e with
  | xH => b mod m
  | xO e' => let r := pow_mod_pos b e' m in (r * r) mod m
  | xI e' => let r := pow_mod_pos b e' m in ((r * r) mod m * b) mod m
  end.

Definition pow_mod (b e m : Z) : Z :=
  match e with
  | Zpos e' => pow_mod_pos b e' m
  | _ => 1 mod m
  end.

(** The candidate square root [v ^ ((p + 1) / 4)] of [v], a root whenever [v]
    has one and [p = 3 (mod 4)], as P-256's prime is; callers validate it. *)
Definition sqrt_candidate (c : EllipticCurve) (v : Z) : Z :=
  pow_mod v ((prime c + 1) / 4) (prime c).

(** The root of [rhs c x] whose parity is [odd]. *)
Definition recover_y (c : EllipticCurve) (x : Z) (odd : bool) : Z :=
  let r := sqrt_candidate c (rhs c x) in
  if Bool.eqb (Z.odd r) odd then r else prime c - r.

(** [point.to_key()]: public numbers have the method [public_key()] and a
    key has [public_numbers()] and [public_bytes()]; neither has a method
    [to_key].  A key and its numbers hold the same coordinates, so one type
    serves both and [public_numbers] is the identity. *)
Definition to_key (pt : EllipticCurvePublicNumbers)
  : result EllipticCurvePublicNumbers :=
  Throw (no_attribute "EllipticCurvePublicNumbers" "to_key").

Definition public_numbers (key : EllipticCurvePublicNumbers) := key.

Definition coordinate_length (c : EllipticCurve) : nat :=
  Z.to_nat ((Z.log2 (prime c) + 1 + 7) / 8).

(** [key.public_bytes(Encoding.X962, PublicFormat.CompressedPoint)] *)
Definition public_bytes (key : EllipticCurvePublicNumbers) : bytes :=
  (if Z.odd (y key) then x03 else x02)
    :: int_to_bytes (coordinate_length (curve key)) (x key).

(** [ec.EllipticCurvePublicKey.from_encoded_point(curve, data)]: SEC1 octets,
    uncompressed ([04 X Y]) or compressed ([02 X], [03 X]); [ValueError] on
    any other octet string and on a point that is not on the curve. *)
Definition from_encoded_point (c : EllipticCurve) (data : bytes)
  : result EllipticCurvePublicNumbers :=
  let len := coordinate_length c in
  let invalid := Throw (ValueError "Invalid public bytes for the given curve") in
  match data with
  | [] => Throw (ValueError "data must not be an empty byte string")
  | tag :: body =>
      if Byte.eqb tag x04 then
        if Nat.eqb (length body) (2 * len) then
          let px := int_from_bytes (firstn len body) in
          let py := int_from_bytes (skipn len body) in
          if on_curve c px py then Return {| x := px; y := py; curve := c |}
          else invalid
        else invalid
      else if Byte.eqb tag x02 || Byte.eqb tag x03 then
        if Nat.eqb (length body) len then
          let px := int_from_bytes body in
          let py := recover_y c px (Byte.eqb tag x03) in
          if on_curve c px py then Return {| x := px; y := py; curve := c |}
          else invalid
        else invalid
      else Throw (ValueError "Unsupported elliptic curve point type")
  end.

(** [ec.derive_private_key(private_value, curve)]: a private value is an
    integer of [1 .. q - 1], [q] the order of the curve's group; any other is
    refused with a [ValueError] (nothing below reads the text of the second
    message).  The key itself is dropped by the caller. *)
Definition derive_private_key (private_value : Z) (c : EllipticCurve) : result Z :=
  if private_value <=? 0
  then Throw (ValueError "private_value must be a positive integer.")
  else if group_order c <=? private_value
  then Throw (ValueError "Invalid EC key")
  else Return private_value.

End ec.

(** ** Randomness and the state monad

    [random], [os.urandom] and the key generator draw from a source the
    program does not control.  The source is a tape of integers read in
    order; a computation that draws threads the tape and may raise. *)

Record Rng := { cursor : nat; tape : nat -> Z }.

Inductive outcome (A : Type) : Type :=
| Ok (a : A) (r : Rng)
| Raise (e : exn).
Arguments Ok {A} a r.
Arguments Raise {A} e.

Definition M (A : Type) : Type := Rng -> outcome A.

Definition ret {A} (a : A) : M A := fun r => Ok a r.

Definition bind {A B} (c : M A) (f : A -> M B) : M B :=
  fun r => match c r with
           | Ok a r' => f a r'
           | Raise e => Raise e
           end.

Definition lift {A} (c : result A) : M A :=
  fun r => match c with
           | Return a => Ok a r
           | Throw e => Raise e
           end.

Declare Scope monad_scope.
Delimit Scope monad_scope with monad.
Notation "x <- c ;; k" := (bind c (fun x => k))
  (at level 61, c at next level, right associativity) : monad_scope.
Local Open Scope monad_scope.

Definition next : M Z :=
  fun r => Ok (tape r (cursor r)) {| cursor := S (cursor r); tape := tape r |}.

(** A loop [for a in l: acc = body(acc, a)] whose body draws or raises. *)
Fixpoint for_each {A S} (l : list A) (body : S -> A -> M S) (acc : S) : M S :=
  match l with
  | [] => ret acc
  | a :: rest => acc' <- body acc a ;; for_each rest body acc'
  end.

Module random.

Definition randbelow (n : Z) : M Z := v <- next ;; ret (v mod n).

(** [random.randint(a, b)]: any integer of [a .. b]. *)
Definition randint (a b : Z) : M Z :=
  v <- randbelow (b - a + 1) ;; ret (a + v).

Fixpoint set_nth {A} (l : list A) (i : nat) (v : A) : list A :=
  match l, i with
  | [], _ => []
  | _ :: t, O => v :: t
  | h :: t, S i' => h :: set_nth t i' v
  end.

Definition swap {A} (l : list A) (i j : nat) : list A :=
  match nth_error l i, nth_error l j with
  | Some a, Some b => set_nth (set_nth l i b) j a
  | _, _ => l
  end.

(** [random.shuffle(x)]: for [i] from [len(x) - 1] down to [1], exchange
    [x[i]] with [x[j]], [j] drawn below [i + 1]. *)
Fixpoint shuffle_from {A} (i : nat) (l : list A) : M (list A) :=
  match i with
  | O => ret l
  | S i' =>
      j <- randbelow (Z.of_nat i + 1) ;;
      shuffle_from i' (swap l i (Z.to_nat j))
  end.

Definition shuffle {A} (l : list A) : M (list A) :=
  shuffle_from (length l - 1) l.

End random.

Module os.

(** [os.urandom(n)] *)
Fixpoint urandom (n : nat) : M Bytes.bytes :=
  match n with
  | O => ret []
  | S n' => b <- next ;; rest <- urandom n' ;; ret (Bytes.byte_of_Z b :: rest)
  end.

End os.

(** ** [class DDHGroup] *)

Module DDHGroup.
Import Bytes.

Record t := {
  curve : ec.EllipticCurve;
  generator : ec.EllipticCurvePublicNumbers
}.

(** The octets [bytes.fromhex("04" + "79BE...1798" + "483A...D4B8")]. *)
Definition generator_octets : bytes :=
  x04
    :: int_to_bytes 32 0x79BE667EF9DCBBAC55A06295CE870B07029BFCDB2DCE28D959F2815B16F81798
    ++ int_to_bytes 32 0x483ADA7726A3C4655DA4FBFC0E1108A8FD17B448A68554199C47D08FFB10D4B8.

(** [DDHGroup.__init__] *)
Definition init : result t :=
  let c := ec.SECP256R1 in
  g <~ ec.from_encoded_point c generator_octets ;;
  Return {| curve := c; generator := ec.public_numbers g |}.

(** [range(n)] *)
Definition range (n : nat) : list Z := map Z.of_nat (seq 0 n).

(** Lines 23 to 25, ahead of the [try]: the digest of
    [data + i.to_bytes(4, 'big')], reduced modulo [self.curve.field_size]. *)
Definition abscissa (self : t) (data : bytes) (i : Z) : result Z :=
  let digest := SHA256.digest (data ++ int_to_bytes 4 i) in
  field_size <~ ec.field_size (curve self) ;;
  Return (int_from_bytes digest mod field_size).

(** Lines 28 and 29, inside the [try]:
    [ec.EllipticCurvePublicNumbers(x, self.curve).to_key()]. *)
Definition point_of_abscissa (self : t) (x : Z)
  : result ec.EllipticCurvePublicNumbers :=
  numbers <~ ec.EllipticCurvePublicNumbers_of_two x (curve self) ;;
  ec.to_key numbers.

(** [for i in range(1000): ...; try: ... return point; except ValueError:
    continue] followed by [raise ValueError("Failed to hash to curve")]: a
    [ValueError] raised inside the [try] goes on to the next counter, any
    other exception and any exception raised ahead of the [try] leaves the
    function. *)
Fixpoint hash_loop (self : t) (data : bytes) (counters : list Z)
  : result ec.EllipticCurvePublicNumbers :=
  match counters with
  | [] => Throw (ValueError "Failed to hash to curve")
  | i :: rest =>
      x <~ abscissa self data i ;;
      match point_of_abscissa self x with
      | Return point => Return point
      | Throw e =>
          if String.eqb (exn_class e) "ValueError"
          then hash_loop self data rest
          else Throw e
      end
  end.

Definition hash_to_curve (self : t) (identifier : string) (seed : bytes)
  : result ec.EllipticCurvePublicNumbers :=
  let data := seed ++ encode identifier in
  hash_loop self data (range 1000).

(** The body of the loop of [exponentiate]: coordinates are added. *)
Definition add_coordinates (self : t) (public_point result : ec.EllipticCurvePublicNumbers)
  : ec.EllipticCurvePublicNumbers :=
  {| ec.x := ec.x result + ec.x (ec.public_numbers public_point);
     ec.y := ec.y result + ec.y (ec.public_numbers public_point);
     ec.curve := curve self |}.

(** [exponentiate]: [range(exponent - 1)] has [max 0 (exponent - 1)] turns. *)
Definition exponentiate (self : t) (point : ec.EllipticCurvePublicNumbers)
           (exponent : Z) : result ec.EllipticCurvePublicNumbers :=
  key <~ ec.derive_private_key exponent (curve self) ;;
  public_point <~ ec.to_key point ;;
  let result := ec.public_numbers public_point in
  Return (Nat.iter (Z.to_nat (exponent - 1)) (add_coordinates self public_point) result).

End DDHGroup.

(** A group object over P-256, with the base point of P-256 as generator:
    the object [DDHGroup()] is written to build. *)
Definition p256_base_point : ec.EllipticCurvePublicNumbers := {|
  ec.x := 0x6b17d1f2e12c4247f8bce6e563a440f277037d812deb33a0f4a13945d898c296;
  ec.y := 0x4fe342e2fe1a7f9b8ee7eb4a7c0f9e162bce33576b315ececbb6406837bf51f5;
  ec.curve := ec.SECP256R1
|}.

Definition p256_group : DDHGroup.t :=
  {| DDHGroup.curve := ec.SECP256R1; DDHGroup.generator := p256_base_point |}.

(** ** The homomorphic cipher library ([phe.paillier])

    The module uses four operations of the library; of the key generator it
    relies on one promise, that the modulus has [n_length] bits. *)

Module paillier.

Class Library := {
  PaillierPublicKey : Type;
  PaillierPrivateKey : Type;
  EncryptedNumber : Type;
  (** [public_key.n] *)
  n : PaillierPublicKey -> Z;
  (** [paillier.generate_paillier_keypair(n_length=...)] *)
  generate_paillier_keypair : Z -> M (PaillierPublicKey * PaillierPrivateKey);
  (** [public_key.encrypt(value)] *)
  encrypt : PaillierPublicKey -> Z -> M EncryptedNumber;
  (** [a + b] on encrypted numbers *)
  add : EncryptedNumber -> EncryptedNumber -> result EncryptedNumber;
  (** [private_key.decrypt(c)] *)
  decrypt : PaillierPrivateKey -> EncryptedNumber -> result Z;
}.

(** What the generator promises: its loop ends when
    [n.bit_length() == n_length]. *)
Definition honours_n_length (L : Library) : Prop :=
  forall n_length r keys r',
    generate_paillier_keypair n_length r = Ok keys r' ->
    Z.log2 (n (fst keys)) + 1 = n_length.

End paillier.

(** ** [class Party]

    [key_pair] holds what [paillier.generate_paillier_keypair] returns, the
    tuple [(public_key, private_key)], or [None]. *)

Module Party.
Section WithLibrary.
Context {L : paillier.Library}.

Record t := {
  name : string;
  ddh : DDHGroup.t;
  key_pair : option (paillier.PaillierPublicKey * paillier.PaillierPrivateKey);
  other_public_key : option paillier.PaillierPublicKey;
  seed : Bytes.bytes;
  k : Z
}.

(** The assignments of [Party.__init__] that follow [self.ddh = DDHGroup()]. *)
Definition init_with (ddh0 : DDHGroup.t) (name0 : string) : M t :=
  seed0 <- os.urandom 16 ;;
  field_size <- lift (ec.field_size (DDHGroup.curve ddh0)) ;;
  k0 <- random.randint 1 (field_size - 1) ;;
  ret {| name := name0; ddh := ddh0; key_pair := None;
         other_public_key := None; seed := seed0; k := k0 |}.

(** [Party.__init__] *)
Definition init (name0 : string) : M t :=
  ddh0 <- lift DDHGroup.init ;;
  init_with ddh0 name0.

(** [generate_paillier_keypair] *)
Definition generate_paillier_keypair (self : t) : M t :=
  keys <- paillier.generate_paillier_keypair 1536 ;;
  ret {| name := name self; ddh := ddh self; key_pair := Some keys;
         other_public_key := other_public_key self;
         seed := seed self; k := k self |}.

(** [set_other_public_key] *)
Definition set_other_public_key (self : t) (public_key : paillier.PaillierPublicKey) : t :=
  {| name := name self; ddh := ddh self; key_pair := key_pair self;
     other_public_key := Some public_key;
     seed := seed self; k := k self |}.

(** [p.seed = seed], the assignment [test.py] makes on both parties. *)
Definition set_seed (self : t) (seed0 : Bytes.bytes) : t :=
  {| name := name self; ddh := ddh self; key_pair := key_pair self;
     other_public_key := other_public_key self;
     seed := seed0; k := k self |}.

(** [self.key_pair.<attribute>]: a tuple has no attribute of the names the
    module reads ([public_key], [decrypt]), and neither has [None]. *)
Definition key_pair_attribute {A} (self : t) (attribute : string) : result A :=
  match key_pair self with
  | Some _ => Throw (no_attribute "tuple" attribute)
  | None => Throw (no_attribute "NoneType" attribute)
  end.

(** [self.key_pair.public_key] *)
Definition public_key (self : t) : result paillier.PaillierPublicKey :=
  key_pair_attribute self "public_key".

End WithLibrary.
End Party.

(** Loops and comprehensions over code that can raise: left to right, ending
    at the first exception. *)
Fixpoint fold_result {A S} (l : list A) (body : S -> A -> result S) (acc : S)
  : result S :=
  match l with
  | [] => Return acc
  | a :: rest => acc' <~ body acc a ;; fold_result rest body acc'
  end.

Fixpoint traverse {A B} (f : A -> result B) (l : list A) : result (list B) :=
  match l with
  | [] => Return []
  | a :: rest => b <~ f a ;; bs <~ traverse f rest ;; Return (b :: bs)
  end.

(** A Python [set] of coordinate pairs; the module only adds and tests. *)
Module PySet.
Definition t := list (Z * Z).
Definition mem (a : Z * Z) (s : t) : bool :=
  existsb (fun b => (fst a =? fst b) && (snd a =? snd b)) s.
Definition add (a : Z * Z) (s : t) : t := if mem a s then s else a :: s.
End PySet.

(** [point.to_key().public_bytes(Encoding.X962, PublicFormat.CompressedPoint)] *)
Definition serialize (point : ec.EllipticCurvePublicNumbers) : result Bytes.bytes :=
  key <~ ec.to_key point ;; Return (ec.public_bytes key).


(** ** [class Party1(Party)]

    [identifiers] lists the set in the order Python iterates over it. *)

Module Party1.
Section WithLibrary.
Context {L : paillier.Library}.

Record t := { base : Party.t; identifiers : list string }.

(** [Party1.__init__] *)
Definition init (identifiers0 : list string) : M t :=
  base0 <- Party.init "P1" ;;
  ret {| base := base0; identifiers := identifiers0 |}.

Definition set_other_public_key (self : t) (pk : paillier.PaillierPublicKey) : t :=
  {| base := Party.set_other_public_key (base self) pk;
     identifiers := identifiers self |}.

(** [round1] *)
Definition round1 (self : t) : M (list Bytes.bytes) :=
  let me := base self in
  hashed <- lift (traverse
    (fun v => DDHGroup.hash_to_curve (Party.ddh me) v (Party.seed me))
    (identifiers self)) ;;
  exponentiated <- lift (traverse
    (fun h => DDHGroup.exponentiate (Party.ddh me) h (Party.k me)) hashed) ;;
  result <- lift (traverse serialize exponentiated) ;;
  random.shuffle result.

(** The first loop of [round3]: [z_points.add((point.x, point.y))]. *)
Definition add_z_point (self : t) (z_points : PySet.t) (z_bytes : Bytes.bytes)
  : result PySet.t :=
  key <~ ec.from_encoded_point (DDHGroup.curve (Party.ddh (base self))) z_bytes ;;
  let point := ec.public_numbers key in
  Return (PySet.add (ec.x point, ec.y point) z_points).

(** The second loop of [round3]: [intersection.append(enc_t)] on a match. *)
Definition match_pair (self : t) (z_points : PySet.t)
           (intersection : list paillier.EncryptedNumber)
           (pair : Bytes.bytes * paillier.EncryptedNumber)
  : result (list paillier.EncryptedNumber) :=
  let me := base self in
  key <~ ec.from_encoded_point (DDHGroup.curve (Party.ddh me)) (fst pair) ;;
  let w_point := ec.public_numbers key in
  w_exp <~ DDHGroup.exponentiate (Party.ddh me) w_point (Party.k me) ;;
  if PySet.mem (ec.x w_exp, ec.y w_exp) z_points
  then Return (intersection ++ [snd pair])
  else Return intersection.

(** [self.other_public_key.encrypt(0)] *)
Definition encrypt_zero (self : t) : M paillier.EncryptedNumber :=
  match Party.other_public_key (base self) with
  | Some pk => paillier.encrypt pk 0
  | None => lift (Throw (AttributeError "'NoneType' object has no attribute 'encrypt'"))
  end.

(** Lines 95 to 103: the cardinality and the ciphertext of the sum. *)
Definition sum_ciphertext (self : t) (intersection : list paillier.EncryptedNumber)
  : M paillier.EncryptedNumber :=
  match intersection with
  | [] => encrypt_zero self
  | first :: rest =>
      s <- lift (fold_result rest (fun acc enc_t => paillier.add acc enc_t) first) ;;
      zero <- encrypt_zero self ;;
      lift (paillier.add s zero)
  end.

(** [round3] *)
Definition round3 (self : t) (z : list Bytes.bytes)
           (w_pairs : list (Bytes.bytes * paillier.EncryptedNumber))
  : M (nat * paillier.EncryptedNumber) :=
  z_points <- lift (fold_result z (add_z_point self) []) ;;
  intersection <- lift (fold_result w_pairs (match_pair self z_points) []) ;;
  let cardinality := length intersection in
  c <- sum_ciphertext self intersection ;;
  ret (cardinality, c).

End WithLibrary.
End Party1.

(** ** [class Party2(Party)] *)

Module Party2.
Section WithLibrary.
Context {L : paillier.Library}.

Record t := { base : Party.t; pairs : list (string * Z) }.

(** [Party2.__init__] *)
Definition init (pairs0 : list (string * Z)) : M t :=
  base0 <- Party.init "P2" ;;
  base1 <- Party.generate_paillier_keypair base0 ;;
  ret {| base := base1; pairs := pairs0 |}.

(** The first loop of [round2]. *)
Definition exponentiate_received (self : t) (z : list Bytes.bytes)
           (v_bytes : Bytes.bytes) : result (list Bytes.bytes) :=
  let me := base self in
  key <~ ec.from_encoded_point (DDHGroup.curve (Party.ddh me)) v_bytes ;;
  let point := ec.public_numbers key in
  z_point <~ DDHGroup.exponentiate (Party.ddh me) point (Party.k me) ;;
  z_bytes <~ serialize z_point ;;
  Return (z ++ [z_bytes]).

(** The second loop of [round2]. *)
Definition process_pair (self : t)
           (w_pairs : list (Bytes.bytes * paillier.EncryptedNumber))
           (pair : string * Z)
  : M (list (Bytes.bytes * paillier.EncryptedNumber)) :=
  let me := base self in
  w_hash <- lift (DDHGroup.hash_to_curve (Party.ddh me) (fst pair) (Party.seed me)) ;;
  w_exp <- lift (DDHGroup.exponentiate (Party.ddh me) w_hash (Party.k me)) ;;
  pk <- lift (Party.public_key me) ;;
  enc_t <- paillier.encrypt pk (snd pair) ;;
  w_bytes <- lift (serialize w_exp) ;;
  ret (w_pairs ++ [(w_bytes, enc_t)]).

(** [round2] *)
Definition round2 (self : t) (v_hashed : list Bytes.bytes)
  : M (list Bytes.bytes * list (Bytes.bytes * paillier.EncryptedNumber)) :=
  z <- lift (fold_result v_hashed (exponentiate_received self) []) ;;
  z' <- random.shuffle z ;;
  w_pairs <- for_each (pairs self) (process_pair self) [] ;;
  w_pairs' <- random.shuffle w_pairs ;;
  ret (z', w_pairs').

(** [output]: [self.key_pair.decrypt(sum_ciphertext)] *)
Definition output (self : t) (sum_ciphertext : paillier.EncryptedNumber) : result Z :=
  decrypt <~ Party.key_pair_attribute (A := paillier.EncryptedNumber -> result Z)
               (base self) "decrypt" ;;
  decrypt sum_ciphertext.

End WithLibrary.
End Party2.

(** ** [run_protocol] and the script under [__main__] *)

Section Protocol.
Context {L : paillier.Library}.

Definition run_protocol (p1 : Party1.t) (p2 : Party2.t) : M (nat * Z) :=
  pk <- lift (Party.public_key (Party2.base p2)) ;;
  let p1 := Party1.set_other_public_key p1 pk in
  v_hashed <- Party1.round1 p1 ;;
  zw <- Party2.round2 p2 v_hashed ;;
  cs <- Party1.round3 p1 (fst zw) (snd zw) ;;
  intersection_sum <- lift (Party2.output p2 (snd cs)) ;;
  ret (fst cs, intersection_sum).

(** Lines 162 to 166: both parties are built, then the protocol runs. *)
Definition main (p1_identifiers : list string) (p2_pairs : list (string * Z))
  : M (nat * Z) :=
  p1 <- Party1.init p1_identifiers ;;
  p2 <- Party2.init p2_pairs ;;
  run_protocol p1 p2.

End Protocol.

(** ** A library to run the model on

    An instance of [paillier.Library] that computes: a ciphertext keeps the
    plaintext residue and the mask in the clear under the modulus it was made
    for.  It stands in for the cipher when the definitions above are run on
    concrete inputs; nothing is claimed about secrecy. *)

Module Reference.

Record ciphertext := { for_modulus : Z; residue : Z; mask : Z }.

(** Primes come from the tape, as the generator's random source delivers
    them; the pair is kept once the product has [n_length] bits. *)
Fixpoint keypair_loop (turns : nat) (n_length : Z) : M (Z * (Z * Z)) :=
  match turns with
  | O => lift (Throw {| exn_class := "RuntimeError"; exn_msg := "no key pair" |})
  | S turns' =>
      p <- next ;;
      q <- next ;;
      if Z.log2 (p * q) + 1 =? n_length
      then ret (p * q, (p, q))
      else keypair_loop turns' n_length
  end.

Definition encrypt (pk value : Z) : M ciphertext :=
  r <- random.randint 1 (pk - 1) ;;
  ret {| for_modulus := pk; residue := value mod pk; mask := r |}.

Definition add (a b : ciphertext) : result ciphertext :=
  if for_modulus a =? for_modulus b
  then Return {| for_modulus := for_modulus a;
                 residue := (residue a + residue b) mod for_modulus a;
                 mask := (mask a * mask b) mod for_modulus a |}
  else Throw (ValueError "Attempted to add numbers encrypted against different public keys!").

Definition decrypt (sk : Z * Z) (c : ciphertext) : result Z :=
  if for_modulus c =? fst sk * snd sk
  then Return (residue c)
  else Throw (ValueError "encrypted_number was encrypted against a different key!").

#[export] Instance library : paillier.Library := {|
  paillier.PaillierPublicKey := Z;
  paillier.PaillierPrivateKey := Z * Z;
  paillier.EncryptedNumber := ciphertext;
  paillier.n := fun pk => pk;
  paillier.generate_paillier_keypair := keypair_loop 8;
  paillier.encrypt := encrypt;
  paillier.add := add;
  paillier.decrypt := decrypt
|}.

(** A tape that reads [draws] and then [default] for ever. *)
Definition tape_of (draws : list Z) (default : Z) : Rng :=
  {| cursor := 0; tape := fun i => nth i draws default |}.

End Reference.

(** ** Inputs the properties are run on *)

Module Scenario.




(** Two primes of 768 bits, for the key generator to draw. *)
Definition prime_p : Z := 2 ^ 767 + 2 ^ 766 + 65.
Definition prime_q : Z := 2 ^ 767 + 2 ^ 766 + 779.

(** The draws of a run: every one of them 0. *)
Definition run_tape : Rng := Reference.tape_of [] 0.

(** A party of each kind with the attributes the constructors assign, the
    scalar 1, over the group [g]; the first knows the public key of the
    second. *)
Definition party1_over (g : DDHGroup.t) : Party1.t (L := Reference.library) :=
  @Party1.Build_t Reference.library
    (@Party.Build_t Reference.library "P1"%string g None
       (Some (prime_p * prime_q)) (repeat x00 16) 1)
    ["user3"%string].

Definition party2_over (g : DDHGroup.t) : Party2.t (L := Reference.library) :=
  @Party2.Build_t Reference.library
    (@Party.Build_t Reference.library "P2"%string g
       (Some (prime_p * prime_q, (prime_p, prime_q))) None (repeat x01 16) 1)
    [("user3"%string, 15)].

(** The octets of the base point of P-256, uncompressed and compressed, and
    the compressed ones with the bits of the last octet flipped: no point of
    the curve has that abscissa. *)
Definition base_point_uncompressed : Bytes.bytes :=
  x04 :: Bytes.int_to_bytes 32 (ec.x p256_base_point)
      ++ Bytes.int_to_bytes 32 (ec.y p256_base_point).



(** The modulus of the key pair [generate_paillier_keypair] leaves in a
    party. *)
Definition generated_modulus (L : paillier.Library) (self : Party.t) (r : Rng)
  : result Z :=
  match Party.generate_paillier_keypair self r with
  | Raise e => Throw e
  | Ok self' _ =>
      match Party.key_pair self' with
      | Some keys => Return (paillier.n (fst keys))
      | None => Throw (AttributeError "key_pair is None")
      end
  end.

(** Two ciphertexts under the key of [party2_over], and a round-2 message
    over the small curve: [Z] holds the point (1, 2); of the two pairs the
    first carries (1, 2), the second (2, 2). *)
Definition fifteen : Reference.ciphertext :=
  {| Reference.for_modulus := prime_p * prime_q;
     Reference.residue := 15; Reference.mask := 7 |}.




End Scenario.

(** ** A party over the small curve

    [P1] with the seed of [test.py], the scalar [k], and no key of [P2]
    yet. *)

Module SmallRun.


End SmallRun.

(** ** [test.py]

    A test method is a computation that returns nothing; it raises when the
    code under test raises or when an assertion fails.  The sets of a test
    are listed in the order the file writes them. *)

Module Tests.
Section WithLibrary.
Context {L : paillier.Library}.

Definition AssertionError (msg : string) : exn :=
  {| exn_class := "AssertionError"; exn_msg := msg |}.

(** [self.assertEqual(first, second, msg)] *)
Definition assertEqual {A} (eqb : A -> A -> bool) (first second : A) (msg : string)
  : M unit :=
  if eqb first second then ret tt else lift (Throw (AssertionError msg)).

(** [setUp]: [self.seed = b"test_seed_1234567890"] *)
Definition seed : Bytes.bytes := Bytes.encode "test_seed_1234567890".

(** [p1.seed = self.seed] *)
Definition seeded1 (p1 : Party1.t) : Party1.t :=
  {| Party1.base := Party.set_seed (Party1.base p1) seed;
     Party1.identifiers := Party1.identifiers p1 |}.

(** [p2.seed = self.seed] *)
Definition seeded2 (p2 : Party2.t) : Party2.t :=
  {| Party2.base := Party.set_seed (Party2.base p2) seed;
     Party2.pairs := Party2.pairs p2 |}.

(** The body the six protocol tests share: build [p1], give it the seed,
    build [p2], give it the seed, run the protocol, compare the cardinality
    and then the sum. *)
Definition protocol_test (p1_identifiers : list string) (p2_pairs : list (string * Z))
           (cardinality : nat) (sum : Z) (msg1 msg2 : string) : M unit :=
  p1 <- Party1.init p1_identifiers ;;
  let p1 := seeded1 p1 in
  p2 <- Party2.init p2_pairs ;;
  let p2 := seeded2 p2 in
  cs <- run_protocol p1 p2 ;;
  u <- assertEqual Nat.eqb (fst cs) cardinality msg1 ;;
  assertEqual Z.eqb (snd cs) sum msg2.

Definition test_basic_intersection : M unit :=
  protocol_test ["user1"; "user2"; "user3"; "user4"]%string
    [("user2", 10); ("user3", 20); ("user5", 30)]%string 2 30
    "Intersection cardinality should be 2"
    "Intersection sum should be 10 + 20 = 30".

Definition test_empty_intersection : M unit :=
  protocol_test ["user1"; "user2"]%string [("user3", 10); ("user4", 20)]%string 0 0
    "Intersection cardinality should be 0" "Intersection sum should be 0".

Definition test_single_intersection : M unit :=
  protocol_test ["user1"; "user2"]%string [("user1", 15)]%string 1 15
    "Intersection cardinality should be 1" "Intersection sum should be 15".

Definition test_empty_input_p1 : M unit :=
  protocol_test [] [("user1", 10); ("user2", 20)]%string 0 0
    "Intersection cardinality should be 0" "Intersection sum should be 0".

Definition test_empty_input_p2 : M unit :=
  protocol_test ["user1"; "user2"]%string [] 0 0
    "Intersection cardinality should be 0" "Intersection sum should be 0".

Definition test_large_values : M unit :=
  protocol_test ["user1"; "user2"; "user3"]%string
    [("user1", 1000); ("user2", 2000); ("user3", 3000)]%string 3 6000
    "Intersection cardinality should be 3"
    "Intersection sum should be 1000 + 2000 + 3000 = 6000".

Definition test_hash_to_curve_consistency : M unit :=
  p1 <- Party1.init ["user1"%string] ;;
  p2 <- Party2.init [("user1"%string, 10)] ;;
  let p1 := seeded1 p1 in
  let p2 := seeded2 p2 in
  point1 <- lift (DDHGroup.hash_to_curve (Party.ddh (Party1.base p1)) "user1" seed) ;;
  point2 <- lift (DDHGroup.hash_to_curve (Party.ddh (Party2.base p2)) "user1" seed) ;;
  u <- assertEqual Z.eqb (ec.x point1) (ec.x point2)
         "Hashed x-coordinates should match" ;;
  assertEqual Z.eqb (ec.y point1) (ec.y point2) "Hashed y-coordinates should match".

(** The methods [unittest.main()] collects, by name. *)
Definition test_methods : list (string * M unit) :=
  [ ("test_basic_intersection"%string, test_basic_intersection);
    ("test_empty_input_p1"%string, test_empty_input_p1);
    ("test_empty_input_p2"%string, test_empty_input_p2);
    ("test_empty_intersection"%string, test_empty_intersection);
    ("test_hash_to_curve_consistency"%string, test_hash_to_curve_consistency);
    ("test_large_values"%string, test_large_values);
    ("test_single_intersection"%string, test_single_intersection) ].

End WithLibrary.
End Tests.

(** * Properties *)

(** ** The primitives agree with their standards *)

Example sha256_abc :
  Bytes.int_from_bytes (SHA256.digest (Bytes.encode "abc"%string))
  = 0xba7816bf8f01cfea414140de5dae2223b00361a396177a9cb410ff61f20015ad.
Proof. vm_compute. reflexivity. Qed.

Example sha256_empty :
  Bytes.int_from_bytes (SHA256.digest [])
  = 0xe3b0c44298fc1c149afbf4c8996fb92427ae41e4649b934ca495991b7852b855.
Proof. vm_compute. reflexivity. Qed.

Example sha256_two_blocks :
  Bytes.int_from_bytes
    (SHA256.digest (Bytes.encode "abcdbcdecdefdefgefghfghighijhijkijkljklmklmnlmnomnopnopq"%string))
  = 0x248d6a61d20638b8e5c026930c3e6039a33ce45964ff2167f6ecedd419db06c1.
Proof. vm_compute. reflexivity. Qed.

Example sha256_constants :
  length SHA256.first_primes = 64%nat
  /\ nth 0 SHA256.round_constants 0 = 0x428a2f98
  /\ nth 63 SHA256.round_constants 0 = 0xc67178f2
  /\ nth 7 SHA256.initial_state 0 = 0x5be0cd19.
Proof. repeat split. Qed.

(** P-256: the base point is on the curve, the field prime is 3 modulo 4 (so
    [sqrt_candidate] finds the roots), and the order of the group is below
    the field prime. *)
Example p256_parameters :
  ec.on_curve ec.SECP256R1 (ec.x p256_base_point) (ec.y p256_base_point) = true
  /\ ec.prime ec.SECP256R1 mod 4 = 3
  /\ ec.group_order ec.SECP256R1 < ec.prime ec.SECP256R1.
Proof. repeat split; vm_compute; reflexivity. Qed.

(** ** [DDHGroup.hash_to_curve] *)

(** The first turn of the loop leaves the function: [self.curve.field_size]
    stands ahead of the [try], and what it raises is no [ValueError]. *)
Lemma hash_loop_raises :
  forall self data i rest,
    DDHGroup.hash_loop self data (i :: rest)
    = Throw (no_attribute (ec.class_name (DDHGroup.curve self)) "field_size").
Proof. reflexivity. Qed.

Lemma hash_to_curve_raises :
  forall self identifier seed,
    DDHGroup.hash_to_curve self identifier seed
    = Throw (no_attribute (ec.class_name (DDHGroup.curve self)) "field_size").
Proof.
  intros self identifier seed. unfold DDHGroup.hash_to_curve, DDHGroup.range.
  change (seq 0 1000) with (0%nat :: seq 1 999). cbn [map].
  apply hash_loop_raises.
Qed.

(** C10. [hash_to_curve] does not search.  Whatever counters follow, the
    loop ends at its first counter with the [AttributeError] of
    [self.curve.field_size]: it reaches no second counter, returns no point,
    and never gets to [raise ValueError("Failed to hash to curve")]. *)
Theorem hash_loop_stops_at_the_first_counter :
  forall (self : DDHGroup.t) (identifier : string) (seed : Bytes.bytes),
    let data := seed ++ Bytes.encode identifier in
    (forall i rest rest',
        DDHGroup.hash_loop self data (i :: rest)
        = DDHGroup.hash_loop self data (i :: rest'))
    /\ exists e,
         DDHGroup.hash_to_curve self identifier seed = Throw e
         /\ DDHGroup.hash_loop self data [0] = Throw e
         /\ exn_class e = "AttributeError"%string
         /\ e <> ValueError "Failed to hash to curve".
Proof.
  intros self identifier seed data. split.
  - intros i rest rest'. now rewrite !hash_loop_raises.
  - exists (no_attribute (ec.class_name (DDHGroup.curve self)) "field_size").
    split; [apply hash_to_curve_raises|]. split; [apply hash_loop_raises|].
    split; [reflexivity|discriminate].
Qed.

(** C7. [hash_to_curve] returns no point, on the curve or off it: for every
    group object, identifier and seed it raises [AttributeError]. *)
Theorem hash_to_curve_returns_no_point :
  forall (self : DDHGroup.t) (identifier : string) (seed : Bytes.bytes),
    exists e,
      DDHGroup.hash_to_curve self identifier seed = Throw e
      /\ exn_class e = "AttributeError"%string.
Proof.
  intros self identifier seed. eexists. split; [apply hash_to_curve_raises|reflexivity].
Qed.

(** ** Building a party *)

Lemma DDHGroup_init_raises :
  DDHGroup.init = Throw (ValueError "Invalid public bytes for the given curve").
Proof. vm_compute. reflexivity. Qed.

Lemma generator_octets_off_curve :
  ec.on_curve ec.SECP256R1
    0x79BE667EF9DCBBAC55A06295CE870B07029BFCDB2DCE28D959F2815B16F81798
    0x483ADA7726A3C4655DA4FBFC0E1108A8FD17B448A68554199C47D08FFB10D4B8 = false.
Proof. vm_compute. reflexivity. Qed.


Section Construction.
Context {L : paillier.Library}.


Lemma Party_init_raises :
  forall name0 r,
    Party.init name0 r = Raise (ValueError "Invalid public bytes for the given curve").
Proof.
  intros name0 r. unfold Party.init, bind, lift.
  rewrite DDHGroup_init_raises. reflexivity.
Qed.

Lemma Party1_init_raises :
  forall identifiers r,
    Party1.init identifiers r
    = Raise (ValueError "Invalid public bytes for the given curve").
Proof.
  intros identifiers r. unfold Party1.init. unfold bind at 1.
  rewrite Party_init_raises. reflexivity.
Qed.


End Construction.

(** C1. No run of the script returns the cardinality and the sum: building
    the first party already raises.  [DDHGroup.__init__] decodes its
    hard-coded generator octets on P-256, they are the base point of
    secp256k1 and not a point of P-256, and the decoder refuses them. *)
Theorem main_raises_on_every_input :
  forall (L : paillier.Library) (p1_identifiers : list string)
         (p2_pairs : list (string * Z)) (r : Rng),
    main p1_identifiers p2_pairs r
    = Raise (ValueError "Invalid public bytes for the given curve").
Proof.
  intros L ids prs r. unfold main, Party1.init.
  unfold bind at 1. unfold bind at 1.
  rewrite Party_init_raises. reflexivity.
Qed.


(** ** [DDHGroup.exponentiate] *)

(** [exponentiate] returns on no input: [derive_private_key] refuses an
    exponent outside [1 .. q - 1] with a [ValueError], and [point.to_key()],
    the next statement, is an [AttributeError]. *)
Lemma exponentiate_never_returns :
  forall self P e,
    exists exn,
      DDHGroup.exponentiate self P e = Throw exn
      /\ (exn_class exn = "ValueError" \/ exn_class exn = "AttributeError")%string.
Proof.
  intros self P e. unfold DDHGroup.exponentiate, ec.derive_private_key.
  destruct (e <=? 0); [eexists; split; [reflexivity|now left]|].
  destruct (ec.group_order (DDHGroup.curve self) <=? e);
    eexists; (split; [reflexivity|]); [now left|now right].
Qed.



(** ** [run_protocol] *)


(** ** Key generation *)

Lemma keypair_loop_length :
  forall turns n_length r keys r',
    Reference.keypair_loop turns n_length r = Ok keys r' ->
    Z.log2 (fst keys) + 1 = n_length.
Proof.
  induction turns as [|turns IH]; intros n_length r keys r' H.
  - discriminate H.
  - cbn in H. unfold bind, next in H. cbn in H.
    destruct (Z.log2 _ + 1 =? n_length) eqn:E.
    + unfold ret in H. injection H as <- _. cbn [fst]. now apply Z.eqb_eq.
    + eapply IH; eassumption.
Qed.

Lemma reference_library_honours_n_length :
  paillier.honours_n_length Reference.library.
Proof.
  intros n_length r keys r' H. exact (keypair_loop_length 8 n_length r keys r' H).
Qed.

(** C6, as the claim states it, fails: the modulus generated from two
    primes of 768 bits is below [2 ^ 3072]. *)
Lemma generated_modulus_below_3072_bits :
  Scenario.generated_modulus Reference.library
    (Party2.base (Scenario.party2_over p256_group))
    (Reference.tape_of [Scenario.prime_p; Scenario.prime_q] 0)
  = Return (Scenario.prime_p * Scenario.prime_q)
  /\ Scenario.prime_p * Scenario.prime_q < 2 ^ 3072.
Proof. split; vm_compute; reflexivity. Qed.

(** C6, amended. [generate_paillier_keypair] asks the library for
    [n_length=1536] ("768-bit primes as per paper"): the key pair it stores
    has a modulus of exactly 1536 bits. *)
Theorem generated_modulus_has_1536_bits :
  forall (L : paillier.Library) (self self' : Party.t) (r r' : Rng),
    paillier.honours_n_length L ->
    Party.generate_paillier_keypair self r = Ok self' r' ->
    exists keys,
      Party.key_pair self' = Some keys
      /\ 2 ^ 1535 <= paillier.n (fst keys) < 2 ^ 1536.
Proof.
  intros L self self' r r' Hlen H. unfold Party.generate_paillier_keypair, bind in H.
  destruct (paillier.generate_paillier_keypair 1536 r) as [keys r1|e] eqn:E;
    [|discriminate H].
  unfold ret in H. injection H as <- _. exists keys. split; [reflexivity|].
  apply Hlen in E.
  assert (Hlog : Z.log2 (paillier.n (fst keys)) = 1535) by lia.
  assert (Hpos : 0 < paillier.n (fst keys)).
  { destruct (Z_lt_le_dec 0 (paillier.n (fst keys))) as [?|Hle]; [assumption|].
    rewrite (Z.log2_nonpos _ Hle) in Hlog. discriminate Hlog. }
  pose proof (Z.log2_spec _ Hpos) as Hs. rewrite Hlog in Hs.
  change (Z.succ 1535) with 1536 in Hs. exact Hs.
Qed.

Lemma generated_modulus_has_1536_bits_witness :
  match Party.generate_paillier_keypair (L := Reference.library)
          (Party2.base (Scenario.party2_over p256_group))
          (Reference.tape_of [Scenario.prime_p; Scenario.prime_q] 0) with
  | Ok self' _ =>
      exists keys,
        Party.key_pair self' = Some keys
        /\ 2 ^ 1535 <= paillier.n (fst keys) < 2 ^ 1536
  | Raise _ => False
  end.
Proof.
  destruct (Party.generate_paillier_keypair (L := Reference.library)
              (Party2.base (Scenario.party2_over p256_group))
              (Reference.tape_of [Scenario.prime_p; Scenario.prime_q] 0))
    as [self' r'|e] eqn:E.
  - exact (generated_modulus_has_1536_bits Reference.library _ self' _ r'
             reference_library_honours_n_length E).
  - vm_compute in E. discriminate E.
Defined.

(** ** [Party1.round1] *)

(** [round1] returns for the empty set only, the empty message and with no
    draw made; with an identifier to hash it raises the [AttributeError] of
    [hash_to_curve]. *)
Theorem round1_returns_only_the_empty_message :
  forall (L : paillier.Library) (self : Party1.t) (r : Rng),
    Party1.round1 self r
    = match Party1.identifiers self with
      | [] => Ok [] r
      | _ :: _ =>
          Raise (no_attribute
                   (ec.class_name (DDHGroup.curve (Party.ddh (Party1.base self))))
                   "field_size")
      end.
Proof.
  intros L self r. unfold Party1.round1.
  destruct (Party1.identifiers self) as [|v rest].
  - reflexivity.
  - cbn [traverse]. rewrite hash_to_curve_raises. reflexivity.
Qed.

(** ** Messages that do not decode *)

Ltac value_error := eexists; reflexivity.

Lemma from_encoded_point_throws_ValueError :
  forall c data e, ec.from_encoded_point c data = Throw e -> is_ValueError e.
Proof.
  intros c data e. unfold ec.from_encoded_point.
  destruct data as [|tag body]; [intro H; injection H as <-; value_error|].
  repeat match goal with
         | |- context [if ?b then _ else _] => destruct b
         end;
    intro H; try discriminate H; injection H as <-; value_error.
Qed.

(** The base point of P-256 decodes from its uncompressed octets; the
    tampered octets do not decode. *)
Lemma base_point_decodes :
  ec.from_encoded_point ec.SECP256R1 Scenario.base_point_uncompressed
  = Return p256_base_point.
Proof. vm_cast_no_check (eq_refl (Return p256_base_point)). Qed.


Section Rounds.
Context {L : paillier.Library}.

(** A turn of the first loop of [round2] raises: what the decoder raises on
    octets it refuses, and what [exponentiate] raises on a decoded point. *)
Lemma exponentiate_received_raises :
  forall (self : Party2.t) acc v,
    exists e, Party2.exponentiate_received self acc v = Throw e.
Proof.
  intros self acc v. unfold Party2.exponentiate_received.
  destruct (ec.from_encoded_point _ v) as [key|e]; cbn [rbind]; [|now exists e].
  destruct (exponentiate_never_returns (Party.ddh (Party2.base self))
              (ec.public_numbers key) (Party.k (Party2.base self))) as [e [He _]].
  rewrite He. now exists e.
Qed.

Lemma round2_raises_on_a_point :
  forall (self : Party2.t) v rest r,
    exists e,
      Party2.exponentiate_received self [] v = Throw e
      /\ Party2.round2 self (v :: rest) r = Raise e.
Proof.
  intros self v rest r. destruct (exponentiate_received_raises self [] v) as [e He].
  exists e. split; [exact He|]. unfold Party2.round2. cbn [fold_result].
  rewrite He. reflexivity.
Qed.


Lemma z_loop_returns :
  forall (self : Party1.t) z acc,
    Forall (fun z_bytes =>
              raises (ec.from_encoded_point
                        (DDHGroup.curve (Party.ddh (Party1.base self))) z_bytes) = false) z ->
    exists z_points, fold_result z (Party1.add_z_point self) acc = Return z_points.
Proof.
  intros self. induction z as [|zb rest IH]; intros acc Hok.
  - now exists acc.
  - inversion Hok as [|? ? Hzb Hrest]; subst. cbn [fold_result].
    unfold Party1.add_z_point at 1.
    destruct (ec.from_encoded_point _ zb) as [key|e]; [|discriminate Hzb].
    cbn [rbind]. apply IH. exact Hrest.
Qed.

(** A turn of the second loop of [round3] raises as well: the decoder's
    [ValueError], or what [exponentiate] raises on the decoded point. *)
Lemma match_pair_raises :
  forall (self : Party1.t) z_points acc pair,
    exists e,
      Party1.match_pair self z_points acc pair = Throw e
      /\ (exn_class e = "ValueError" \/ exn_class e = "AttributeError")%string.
Proof.
  intros self z_points acc pair. unfold Party1.match_pair.
  destruct (ec.from_encoded_point _ (fst pair)) as [key|e] eqn:E; cbn [rbind].
  - destruct (exponentiate_never_returns (Party.ddh (Party1.base self))
                (ec.public_numbers key) (Party.k (Party1.base self))) as [e [He Hc]].
    rewrite He. now exists e.
  - exists e. split; [reflexivity|]. left.
    destruct (from_encoded_point_throws_ValueError _ _ _ E) as [msg ->]. reflexivity.
Qed.


Lemma round3_raises_the_first_pair_error :
  forall (self : Party1.t) z pair rest r,
    Forall (fun z_bytes =>
              raises (ec.from_encoded_point
                        (DDHGroup.curve (Party.ddh (Party1.base self))) z_bytes) = false) z ->
    exists z_points e,
      Party1.match_pair self z_points [] pair = Throw e
      /\ Party1.round3 self z (pair :: rest) r = Raise e.
Proof.
  intros self z pair rest r Hz. destruct (z_loop_returns self z [] Hz) as [z_points Hfold].
  destruct (match_pair_raises self z_points [] pair) as [e [He _]].
  exists z_points, e. split; [exact He|]. unfold Party1.round3.
  unfold bind at 1. unfold lift at 1. rewrite Hfold.
  unfold bind at 1. unfold lift at 1. cbn [fold_result]. rewrite He. reflexivity.
Qed.

Lemma round3_without_pairs :
  forall (self : Party1.t) z r pk2,
    Party.other_public_key (Party1.base self) = Some pk2 ->
    Forall (fun z_bytes =>
              raises (ec.from_encoded_point
                        (DDHGroup.curve (Party.ddh (Party1.base self))) z_bytes) = false) z ->
    Party1.round3 self z [] r = (c <- paillier.encrypt pk2 0 ;; ret (0%nat, c)) r.
Proof.
  intros self z r pk2 Hpk Hz. unfold Party1.round3.
  destruct (z_loop_returns self z [] Hz) as [z_points Hfold].
  unfold bind at 1. unfold lift at 1. rewrite Hfold.
  unfold bind at 1. unfold lift at 1. cbn [fold_result length].
  unfold Party1.sum_ciphertext, Party1.encrypt_zero. rewrite Hpk. reflexivity.
Qed.

End Rounds.

(** ** [Party1.round3] *)

(** [round3] on P-256, for a party with the scalar 1: with [Z] the base
    point and no pair, the empty branch returns the cardinality 0 and a
    fresh encryption of 0; with one pair that carries the same point, a
    match under the scalar 1, it raises the [AttributeError] of
    [point.to_key()] and no cardinality is returned. *)
Example round3_on_the_base_point :
  Party1.round3 (Scenario.party1_over p256_group)
    [Scenario.base_point_uncompressed] [] Scenario.run_tape
  = Ok (0%nat,
        {| Reference.for_modulus := Scenario.prime_p * Scenario.prime_q;
           Reference.residue := 0; Reference.mask := 1 |})
       {| cursor := 1; tape := tape Scenario.run_tape |}
  /\ Party1.round3 (Scenario.party1_over p256_group)
       [Scenario.base_point_uncompressed]
       [(Scenario.base_point_uncompressed, Scenario.fifteen)] Scenario.run_tape
     = Raise (no_attribute "EllipticCurvePublicNumbers" "to_key").
Proof. split; vm_compute; reflexivity. Qed.

Lemma base_point_is_decodable :
  Forall (fun z_bytes => raises (ec.from_encoded_point ec.SECP256R1 z_bytes) = false)
         [Scenario.base_point_uncompressed].
Proof. constructor; [rewrite base_point_decodes; reflexivity|constructor]. Qed.

(** C4. [round3] returns for an empty [W_pairs] only.  Once [Z] has decoded
    and the key of [P2] is known, it returns the cardinality 0 with
    [encrypt(0)] under that key when there is no pair; with a pair to
    process it raises, a [ValueError] or an [AttributeError], and so never
    gets to lines 99 to 103, the repeated addition and the refresh. *)
Theorem round3_returns_only_without_pairs :
  forall (L : paillier.Library) (self : Party1.t) (z : list Bytes.bytes) (r : Rng)
         (pk2 : paillier.PaillierPublicKey),
    Party.other_public_key (Party1.base self) = Some pk2 ->
    Forall (fun z_bytes =>
              raises (ec.from_encoded_point
                        (DDHGroup.curve (Party.ddh (Party1.base self))) z_bytes) = false) z ->
    Party1.round3 self z [] r = (c <- paillier.encrypt pk2 0 ;; ret (0%nat, c)) r
    /\ forall pair rest,
         exists e,
           Party1.round3 self z (pair :: rest) r = Raise e
           /\ (exn_class e = "ValueError" \/ exn_class e = "AttributeError")%string.
Proof.
  intros L self z r pk2 Hpk Hz. split.
  - exact (round3_without_pairs self z r pk2 Hpk Hz).
  - intros pair rest.
    destruct (z_loop_returns self z [] Hz) as [z_points Hfold].
    destruct (match_pair_raises self z_points [] pair) as [e [He Hc]].
    exists e. split; [|exact Hc]. unfold Party1.round3.
    unfold bind at 1. unfold lift at 1. rewrite Hfold.
    unfold bind at 1. unfold lift at 1. cbn [fold_result]. rewrite He. reflexivity.
Qed.

Lemma round3_returns_only_without_pairs_witness :
  Party1.round3 (Scenario.party1_over p256_group)
    [Scenario.base_point_uncompressed] [] Scenario.run_tape
  = (c <- Reference.encrypt (Scenario.prime_p * Scenario.prime_q) 0 ;; ret (0%nat, c))
      Scenario.run_tape
  /\ forall pair rest,
       exists e,
         Party1.round3 (Scenario.party1_over p256_group)
           [Scenario.base_point_uncompressed] (pair :: rest) Scenario.run_tape
         = Raise e
         /\ (exn_class e = "ValueError" \/ exn_class e = "AttributeError")%string.
Proof.
  exact (round3_returns_only_without_pairs Reference.library
           (Scenario.party1_over p256_group) [Scenario.base_point_uncompressed]
           Scenario.run_tape (Scenario.prime_p * Scenario.prime_q) eq_refl
           base_point_is_decodable).
Defined.

(** ** Two invocations of [hash_to_curve] *)


(** ** The rounds on a message that does not decode *)


Section Rejection.
Context {L : paillier.Library}.



End Rejection.




(** ** [Party2.round2] *)

(** [round2] returns only when it is sent the empty message and the party
    holds no pair, two empty lists and with no draw made.  A point in the
    message raises in the first turn of the first loop, what the decoder
    raises or what [exponentiate] does; the empty message with a pair to
    process raises the [AttributeError] of [hash_to_curve]. *)
Theorem round2_returns_only_without_input :
  forall (L : paillier.Library) (self : Party2.t) (v_hashed : list Bytes.bytes)
         (r : Rng),
    match v_hashed, Party2.pairs self with
    | [], [] => Party2.round2 self v_hashed r = Ok ([], []) r
    | [], _ :: _ =>
        Party2.round2 self v_hashed r
        = Raise (no_attribute
                   (ec.class_name (DDHGroup.curve (Party.ddh (Party2.base self))))
                   "field_size")
    | v :: _, _ =>
        exists e,
          Party2.exponentiate_received self [] v = Throw e
          /\ Party2.round2 self v_hashed r = Raise e
    end.
Proof.
  intros L self v_hashed r. destruct v_hashed as [|v rest].
  - unfold Party2.round2. destruct (Party2.pairs self) as [|pair pairs].
    + reflexivity.
    + cbn [fold_result]. unfold bind at 1. unfold lift at 1.
      unfold bind at 1. cbn [length Nat.sub random.shuffle random.shuffle_from].
      unfold random.shuffle. cbn [length Nat.sub random.shuffle_from]. unfold ret at 1.
      unfold bind at 1. cbn [for_each]. unfold bind at 1.
      unfold Party2.process_pair. unfold bind at 1. unfold lift at 1.
      rewrite hash_to_curve_raises. reflexivity.
  - exact (round2_raises_on_a_point self v rest r).
Qed.

(** ** [Party1.round3], whatever the message *)



(** ** [test.py] *)

Section TestsRaise.
Context {L : paillier.Library}.

Lemma protocol_test_raises :
  forall p1_identifiers p2_pairs cardinality sum msg1 msg2 r,
    Tests.protocol_test p1_identifiers p2_pairs cardinality sum msg1 msg2 r
    = Raise (ValueError "Invalid public bytes for the given curve").
Proof.
  intros. unfold Tests.protocol_test. unfold bind at 1.
  rewrite Party1_init_raises. reflexivity.
Qed.

End TestsRaise.

(** No test of [test.py] reaches the protocol or an assertion: with any
    cipher library and any random source, each of the seven methods ends in
    the [ValueError] its first constructor call raises. *)
Theorem tests_raise_in_the_first_constructor :
  forall (L : paillier.Library) (r : Rng),
    Forall (fun test =>
              snd test r = Raise (ValueError "Invalid public bytes for the given curve"))
           Tests.test_methods.
Proof.
  intros L r. unfold Tests.test_methods.
  do 4 (apply Forall_cons; [exact (protocol_test_raises _ _ _ _ _ _ r)|]).
  apply Forall_cons.
  { cbn [snd]. unfold Tests.test_hash_to_curve_consistency. unfold bind at 1.
    rewrite Party1_init_raises. reflexivity. }
  do 2 (apply Forall_cons; [exact (protocol_test_raises _ _ _ _ _ _ r)|]).
  apply Forall_nil.
Qed.
